(** * Protocol insolvency query: a shallow embedding of
      [protocol_insolvency_query.py] and the properties of its pipeline.

    The query runs on objects handed out by the Glider host platform
    (functions, instructions, arguments, dataflow points).  Every host
    accessor the code calls may raise; the code wraps the calls in
    [try ... except Exception] blocks.  The model keeps those accessors as
    fields of records, each returning a [result], and the Python control
    flow (early [return], handlers, lazily consumed iterators) is written
    out by hand.  The representation is immutable while the query runs:
    an accessor called twice on the same object answers the same. *)

From Stdlib Require Import String Ascii List Bool Arith Lia.
Import ListNotations.
Open Scope string_scope.
Open Scope list_scope.

Set Implicit Arguments.

(** ** Python text primitives

    Source text is a Python [str]; the model holds its characters as
    code points below 256, one [ascii] each. *)

Module PyStr.

(** [sub in s], the substring test of Python. *)
Fixpoint contains (sub s : string) : bool :=
  match s with
  | EmptyString => prefix sub EmptyString
  | String _ s' => prefix sub s || contains sub s'
  end.

(** [c.lower()] for one character: [A-Z] and the upper-case letters of
    the Latin-1 block (U+00C0..U+00DE without U+00D7) move up by 32. *)
Definition lower_char (c : ascii) : ascii :=
  let n := nat_of_ascii c in
  if (((65 <=? n) && (n <=? 90))
      || ((192 <=? n) && (n <=? 222) && negb (n =? 215)))%nat
  then ascii_of_nat (n + 32) else c.

(** [s.lower()]. *)
Fixpoint lower (s : string) : string :=
  match s with
  | EmptyString => EmptyString
  | String c s' => String (lower_char c) (lower s')
  end.

(** [c.isspace()] on code points below 256. *)
Definition is_space (c : ascii) : bool :=
  let n := nat_of_ascii c in
  (((9 <=? n) && (n <=? 13)) || ((28 <=? n) && (n <=? 32))
   || (n =? 133) || (n =? 160))%nat.

(** [s.lstrip()]. *)
Fixpoint lstrip (s : string) : string :=
  match s with
  | EmptyString => EmptyString
  | String c s' => if is_space c then lstrip s' else s
  end.

(** [s.rstrip()]: a character is dropped when it is a space and nothing
    but spaces follows it. *)
Fixpoint rstrip (s : string) : string :=
  match s with
  | EmptyString => EmptyString
  | String c s' =>
      match rstrip s' with
      | EmptyString => if is_space c then EmptyString else String c EmptyString
      | r => String c r
      end
  end.

(** [s.strip()]. *)
Definition strip (s : string) : string := rstrip (lstrip s).

(** Every character of [s] is white space. *)
Fixpoint all_space (s : string) : bool :=
  match s with
  | EmptyString => true
  | String c s' => is_space c && all_space s'
  end.

(** [x in l] for a list of strings. *)
Definition mem (x : string) (l : list string) : bool :=
  existsb (String.eqb x) l.

End PyStr.

(** ** Host objects

    A host call either returns or raises; the handlers of the query catch
    [Exception], so which exception it is does not matter. *)

Inductive result (A : Type) : Type :=
| Ok (a : A)
| Raised.

Arguments Raised {A}.

(** What a [for] loop sees of an iterable: it is exhausted ([Stop]), the
    iterator raises ([Fails]), or it hands out one more element.  A loop
    body that returns never asks for [rest]. *)
Inductive PyIter (A : Type) : Type :=
| Stop
| Fails
| Yield (a : A) (rest : PyIter A).

Arguments Stop {A}.
Arguments Fails {A}.

(** The elements [l], then whatever [it] does. *)
Fixpoint yield_all {A : Type} (l : list A) (it : PyIter A) : PyIter A :=
  match l with
  | [] => it
  | a :: l' => Yield a (yield_all l' it)
  end.

(** [Visits it pre a]: iterating [it] hands out the elements [pre] and
    then [a], without raising on the way. *)
Inductive Visits {A : Type} : PyIter A -> list A -> A -> Prop :=
| Visits_here a rest : Visits (Yield a rest) [] a
| Visits_later b rest pre a :
    Visits rest pre a -> Visits (Yield b rest) (b :: pre) a.

(** A node of a backward dataflow trace. *)
Record DfPoint : Type := mkDfPoint {
  point_source_code : result string
}.

(** An argument expression of a call.  [has_global_df] is [None] when the
    object has no such attribute ([hasattr] is false). *)
Record Arg : Type := mkArg {
  arg_source_code : result string;
  backward_df : result (PyIter DfPoint);
  has_global_df : option (result bool)
}.

Inductive MethodProp : Type :=
| PUBLIC | EXTERNAL | INTERNAL | PRIVATE | IS_PURE | IS_VIEW | IS_PAYABLE.

Definition MethodProp_eqb (p q : MethodProp) : bool :=
  match p, q with
  | PUBLIC, PUBLIC | EXTERNAL, EXTERNAL | INTERNAL, INTERNAL
  | PRIVATE, PRIVATE | IS_PURE, IS_PURE | IS_VIEW, IS_VIEW
  | IS_PAYABLE, IS_PAYABLE => true
  | _, _ => false
  end.

(** Functions and the instructions in them.  The parent and successor
    links of the host are cyclic; the query follows each of them one step
    only, so a finite unfolding stands for them. *)
#[warnings="-register-all"] Inductive Function : Type := mkFunction {
  name : string;
  properties : list MethodProp;
  modifier_names : list string;
  arg_types : list string;
  instructions : list Instruction
}
with Instruction : Type := mkInstruction {
  get_args : result (list Arg);
  callee_names : result (list string);
  source_code : result string;
  get_parent : result (option Function);
  next_instructions : result (PyIter Instruction)
}.

(** [l[-1]]; [None] stands for the [IndexError] on an empty list. *)
Fixpoint py_last {A : Type} (l : list A) : option A :=
  match l with
  | [] => None
  | [a] => Some a
  | _ :: l' => py_last l'
  end.

(** ** The heuristics of [protocol_insolvency_query.py] *)

Definition reserve_check_patterns : list string :=
  [ "balanceOf"; "getBalance"; "available"; "liquidity"; "reserves";
    "totalAssets"; "getReserves" ].

(** The [for df_point in backward_flow] loop of [lacks_reserve_check],
    with the value the function returns when the loop is left: by the
    [return False] inside, by falling through to [return True], or by an
    exception of the iterator, which the outer handler turns into [True].
    [source_code()] raising inside the body is caught by the inner
    handler and the loop goes on. *)
Fixpoint scan_backward_flow (backward_flow : PyIter DfPoint) : bool :=
  match backward_flow with
  | Stop => true
  | Fails => true
  | Yield df_point rest =>
      match point_source_code df_point with
      | Raised => scan_backward_flow rest
      | Ok text =>
          let source := PyStr.lower text in
          if existsb (fun pattern => PyStr.contains (PyStr.lower pattern) source)
                     reserve_check_patterns
          then
            if PyStr.contains "address(this)" text || PyStr.contains "this" text
            then false
            else scan_backward_flow rest
          else scan_backward_flow rest
      end
  end.

Definition lacks_reserve_check (instruction : Instruction) : bool :=
  match get_args instruction with
  | Raised => true
  | Ok transfer_args =>
      if Nat.eqb (List.length transfer_args) 0 then false
      else
        match py_last transfer_args with
        | None => true
        | Some amount_arg =>
            match backward_df amount_arg with
            | Raised => true
            | Ok backward_flow => scan_backward_flow backward_flow
            end
        end
  end.

Definition has_global_df_in_amount (instruction : Instruction) : bool :=
  match get_args instruction with
  | Raised => true
  | Ok transfer_args =>
      if Nat.eqb (List.length transfer_args) 0 then false
      else
        match py_last transfer_args with
        | None => true
        | Some amount_arg =>
            match has_global_df amount_arg with
            | Some (Ok b) => b
            | Some Raised => true
            | None => true
            end
        end
  end.

Definition safe_patterns : list string :=
  [ "safetransfer"; "safewithdraw"; "safemint"; "safeburn" ].

Definition is_protected_by_safe_wrapper (instruction : Instruction) : bool :=
  match get_parent instruction with
  | Raised => false
  | Ok None => false
  | Ok (Some parent_function) =>
      let func_name := PyStr.lower (name parent_function) in
      existsb (fun pattern => PyStr.contains pattern func_name) safe_patterns
  end.

(** The [for next_instr in next_instructions] loop of
    [has_post_transfer_revert_guard].  [callee_names()] is called outside
    the inner [try], so when it raises the outer handler returns [False];
    [source_code()] raising is caught inside and the loop goes on. *)
Fixpoint scan_next_instructions (next_instructions : PyIter Instruction) : bool :=
  match next_instructions with
  | Stop => false
  | Fails => false
  | Yield next_instr rest =>
      match callee_names next_instr with
      | Raised => false
      | Ok instr_callees =>
          if PyStr.mem "require" instr_callees || PyStr.mem "assert" instr_callees
          then
            match source_code next_instr with
            | Raised => scan_next_instructions rest
            | Ok source =>
                if PyStr.contains "success" (PyStr.lower source)
                   || PyStr.contains "ok" (PyStr.lower source)
                then true
                else scan_next_instructions rest
            end
          else scan_next_instructions rest
      end
  end.

Definition has_post_transfer_revert_guard (instruction : Instruction) : bool :=
  match next_instructions instruction with
  | Raised => false
  | Ok successors => scan_next_instructions successors
  end.

Definition is_amount_constant_zero (instruction : Instruction) : bool :=
  match get_args instruction with
  | Raised => false
  | Ok transfer_args =>
      if Nat.eqb (List.length transfer_args) 0 then false
      else
        match py_last transfer_args with
        | None => false
        | Some amount_arg =>
            match arg_source_code amount_arg with
            | Raised => false
            | Ok source =>
                if String.eqb (PyStr.strip source) "0"
                   || PyStr.contains "uint256).max" source
                then true
                else false
            end
        end
  end.

(** ** The host's query operators

    [Functions()], the selection methods chained on it, [exec] and
    [filter] belong to the Glider platform, not to this repository. *)

Module Glider.

(** A function has the property [p]. *)
Definition has_property (f : Function) (p : MethodProp) : bool :=
  existsb (MethodProp_eqb p) (properties f).

(** Modelled from the spec: [with_one_property] keeps the functions that
    have at least one of the listed properties ("public or external"). *)
Definition with_one_property (props : list MethodProp) (fs : list Function)
  : list Function :=
  filter (fun f => existsb (has_property f) props) fs.

(** Modelled from the spec: [without_properties] keeps the functions that
    have none of the listed properties ("not (pure or view)"). *)
Definition without_properties (props : list MethodProp) (fs : list Function)
  : list Function :=
  filter (fun f => negb (existsb (has_property f) props)) fs.

(** Modelled from the spec: [without_modifier_names] keeps the functions
    that carry none of the listed modifiers. *)
Definition without_modifier_names (names : list string) (fs : list Function)
  : list Function :=
  filter (fun f => negb (existsb (fun m => PyStr.mem m (modifier_names f)) names)) fs.

(** Modelled from the spec: [with_one_of_the_names] keeps the functions
    whose name is one of the listed names. *)
Definition with_one_of_the_names (names : list string) (fs : list Function)
  : list Function :=
  filter (fun f => PyStr.mem (name f) names) fs.

(** Modelled from the spec: [with_arg_type] keeps the functions that
    declare at least one parameter of the given type. *)
Definition with_arg_type (ty : string) (fs : list Function) : list Function :=
  filter (fun f => PyStr.mem ty (arg_types f)) fs.

(** Modelled from the spec: [exec limit] runs the selection and hands
    out at most [limit] elements, the first ones, truncating without
    failing past the bound. *)
Definition exec {A : Type} (limit : nat) (l : list A) : list A :=
  firstn limit l.

(** Modelled from the spec: [instructions()] lowers the functions to
    their instructions, function by function, in control order. *)
Definition instructions_of (fs : list Function) : list Instruction :=
  flat_map instructions fs.

(** Modelled from the spec: [filter] of an [APIList] calls the Python
    predicate on the elements in order and keeps those it accepts; an
    exception of the predicate leaves the call. *)
Fixpoint filter_py {A : Type} (f : A -> result bool) (l : list A)
  : result (list A) :=
  match l with
  | [] => Ok []
  | a :: l' =>
      match f a with
      | Raised => Raised
      | Ok b =>
          match filter_py f l' with
          | Raised => Raised
          | Ok r => Ok (if b then a :: r else r)
          end
      end
  end.

End Glider.

(** ** The pipeline *)

Definition guarded_modifiers : list string :=
  [ "onlyOwner"; "nonReentrant"; "whenNotPaused"; "lock" ].

Definition candidate_names : list string :=
  [ "withdraw"; "redeem"; "burn"; "transferFrom"; "safeWithdraw";
    "exitMarket"; "borrow"; "redeemShares"; "unstake"; "claim";
    "liquidate"; "seize"; "exit"; "removeLiquidity" ].

Definition outflow_callees : list string :=
  [ "transfer"; "burn"; "transferFrom"; "safeTransferFrom"; "_burn" ].

(** Step 1 of [query], with the bound of [exec] as a parameter. *)
Definition candidate_functions (fcap : nat) (contract : list Function)
  : list Function :=
  Glider.exec fcap
    (Glider.with_arg_type "uint256"
      (Glider.with_one_of_the_names candidate_names
        (Glider.without_modifier_names guarded_modifiers
          (Glider.without_properties [IS_PURE; IS_VIEW]
            (Glider.with_one_property [PUBLIC; EXTERNAL] contract))))).

(** The predicate of step 2: [callee_names()] is called with no handler
    around it. *)
Definition is_outflow (ins : Instruction) : result bool :=
  match callee_names ins with
  | Raised => Raised
  | Ok names => Ok (existsb (fun callee => PyStr.mem callee names) outflow_callees)
  end.

(** The predicate of step 3. *)
Definition is_vulnerable (ins : Instruction) : bool :=
  lacks_reserve_check ins && has_global_df_in_amount ins.

(** The predicate of step 4. *)
Definition survives_filters (ins : Instruction) : bool :=
  negb (is_protected_by_safe_wrapper ins)
  && negb (has_post_transfer_revert_guard ins)
  && negb (is_amount_constant_zero ins).

(** [query], with the two bounds as parameters; [contract] is what
    [Functions()] ranges over. *)
Definition query_with_caps (fcap icap : nat) (contract : list Function)
  : result (list Instruction) :=
  let candidates := candidate_functions fcap contract in
  match Glider.filter_py is_outflow
          (Glider.exec icap (Glider.instructions_of candidates)) with
  | Raised => Raised
  | Ok transfer_and_burn_instructions =>
      let vulnerable_instructions :=
        filter is_vulnerable transfer_and_burn_instructions in
      Ok (filter survives_filters vulnerable_instructions)
  end.

Definition query (contract : list Function) : result (list Instruction) :=
  query_with_caps 500 1000 contract.

(** ** Predicates used to state the properties *)

(** The vocabulary test of the loop body of [lacks_reserve_check]. *)
Definition has_reserve_vocabulary (text : string) : bool :=
  existsb (fun pattern => PyStr.contains (PyStr.lower pattern) (PyStr.lower text))
          reserve_check_patterns.

(** The self-reference test of the loop body of [lacks_reserve_check]. *)
Definition mentions_this (text : string) : bool :=
  PyStr.contains "address(this)" text || PyStr.contains "this" text.

(** The point passes both tests of the loop body. *)
Definition point_guards (p : DfPoint) : bool :=
  match point_source_code p with
  | Raised => false
  | Ok text => has_reserve_vocabulary text && mentions_this text
  end.

(** The test [has_post_transfer_revert_guard] makes on a successor. *)
Definition is_revert_guard (s : Instruction) : Prop :=
  exists callees text,
    callee_names s = Ok callees
    /\ (PyStr.mem "require" callees || PyStr.mem "assert" callees) = true
    /\ source_code s = Ok text
    /\ (PyStr.contains "success" (PyStr.lower text)
        || PyStr.contains "ok" (PyStr.lower text)) = true.

(** The same test, computed. *)
Definition revert_guard_b (s : Instruction) : bool :=
  match callee_names s, source_code s with
  | Ok callees, Ok text =>
      (PyStr.mem "require" callees || PyStr.mem "assert" callees)
      && (PyStr.contains "success" (PyStr.lower text)
          || PyStr.contains "ok" (PyStr.lower text))
  | _, _ => false
  end.

(** Reading the callee names of [s] does not raise. *)
Definition callees_readable (s : Instruction) : Prop :=
  callee_names s <> Raised.

(** A character that can stand inside a Solidity identifier. *)
Definition is_ident_char (c : ascii) : bool :=
  let n := nat_of_ascii c in
  (((48 <=? n) && (n <=? 57)) || ((65 <=? n) && (n <=? 90))
   || ((97 <=? n) && (n <=? 122)) || (n =? 95) || (n =? 36))%nat.

(** The character right after a leading [w] in [s] is an identifier
    character. *)
Definition followed_by_ident (w s : string) : bool :=
  match String.get (String.length w) s with
  | Some c => is_ident_char c
  | None => false
  end.

(** [w] occurs in [s] as a word of its own: no identifier character
    right before it or right after it.  [after_ident] says whether the
    character before [s] was one. *)
Fixpoint word_occurs_from (after_ident : bool) (w s : string) : bool :=
  match s with
  | EmptyString => false
  | String c s' =>
      (negb after_ident && prefix w s && negb (followed_by_ident w s))
      || word_occurs_from (is_ident_char c) w s'
  end.

(** Following the spec's words, to compare with [mentions_this]: a point
    refers to the contract's own identity when its text has the
    contract's own address [address(this)] or the self-identifier
    [this], that is the keyword [this] as a word of its own.  The same
    four letters inside a longer identifier name something else. *)
Definition self_reference_spec (text : string) : bool :=
  word_occurs_from false "this" text.

(** Following the spec's words (4.1), to compare with
    [candidate_functions]: public or external, not pure or view, none of
    the guarding modifiers, a name of the vocabulary, and a [uint256]
    parameter. *)
Definition is_candidate (f : Function) : bool :=
  (Glider.has_property f PUBLIC || Glider.has_property f EXTERNAL)
  && negb (Glider.has_property f IS_PURE || Glider.has_property f IS_VIEW)
  && negb (existsb (fun m => PyStr.mem m (modifier_names f)) guarded_modifiers)
  && PyStr.mem (name f) candidate_names
  && PyStr.mem "uint256" (arg_types f).

(** The loop of [lacks_reserve_check] reaches a point whose text can be
    read, has a word of the reserve vocabulary and passes [self_test]. *)
Definition reserve_evidence (self_test : string -> bool)
    (flow : PyIter DfPoint) : Prop :=
  exists pre p text,
    Visits flow pre p
    /\ point_source_code p = Ok text
    /\ has_reserve_vocabulary text = true
    /\ self_test text = true.

(** [l1] is an initial segment of [l2]. *)
Definition is_prefix {A : Type} (l1 l2 : list A) : Prop :=
  exists ext, l2 = l1 ++ ext.

(** The instructions step 2 of [query] looks at: those of the candidate
    functions, cut by the second bound. *)
Definition extracted (fcap icap : nat) (contract : list Function)
  : list Instruction :=
  Glider.exec icap (Glider.instructions_of (candidate_functions fcap contract)).

(** An instruction passes the three [filter] calls of [query]. *)
Definition is_finding (ins : Instruction) : bool :=
  match is_outflow ins with
  | Ok true => is_vulnerable ins && survives_filters ins
  | _ => false
  end.

(** Every instruction of the contract names, as its parent, a function
    with the name of the function it is listed in. *)
Definition well_parented (contract : list Function) : Prop :=
  forall f ins,
    In f contract -> In ins (instructions f) ->
    exists p, get_parent ins = Ok (Some p) /\ name p = name f.

(** Steps 2 to 4 of [query], run on the candidate functions that step 1
    hands over. *)
Definition analyse_candidates (icap : nat) (candidates : list Function)
  : result (list Instruction) :=
  match Glider.filter_py is_outflow
          (Glider.exec icap (Glider.instructions_of candidates)) with
  | Raised => Raised
  | Ok transfer_and_burn_instructions =>
      Ok (filter survives_filters
            (filter is_vulnerable transfer_and_burn_instructions))
  end.

(** ** Sample contracts

    The scenarios of the specification, as host objects. *)

Module Sample.

(** A dataflow point with the given text. *)
Definition point (text : string) : DfPoint := mkDfPoint (Ok text).

(** An expression that flows from the points [trace] and that the host
    reports as externally influenced or not. *)
Definition expr (text : string) (trace : list DfPoint) (tainted : bool) : Arg :=
  mkArg (Ok text) (Ok (yield_all trace Stop)) (Some (Ok tainted)).

(** A public function of the given name with one [uint256] parameter. *)
Definition fn (fname : string) (body : list Instruction) : Function :=
  mkFunction fname [PUBLIC] [] ["uint256"] body.

(** A call inside the function [fname], followed by [succ]. *)
Definition call (fname callee text : string) (args : list Arg)
    (succ : list Instruction) : Instruction :=
  mkInstruction (Ok args) (Ok [callee]) (Ok text)
                (Ok (Some (fn fname []))) (Ok (yield_all succ Stop)).

Definition recipient : Arg := expr "msg.sender" [] true.

Definition amount : Arg := expr "amount" [point "uint256 amount"] true.

(** Scenario A: [withdraw(uint256 amount)] with a bare
    [token.transfer(msg.sender, amount)]. *)
Definition transfer_A : Instruction :=
  call "withdraw" "transfer" "token.transfer(msg.sender, amount)"
       [recipient; amount] [].

(** Scenario B: the amount flows through
    [require(token.balanceOf(address(this)) >= amount)]. *)
Definition amount_B : Arg :=
  expr "amount"
       [point "require(token.balanceOf(address(this)) >= amount)";
        point "uint256 amount"] true.

Definition transfer_B : Instruction :=
  call "withdraw" "transfer" "token.transfer(msg.sender, amount)"
       [recipient; amount_B] [].

(** Scenario C: [transfer(to, 0)]. *)
Definition zero : Arg := expr "0" [] true.

Definition transfer_C : Instruction :=
  call "withdraw" "transfer" "token.transfer(to, 0)" [recipient; zero] [].

(** Scenario D: the transfer is followed by [require(success)]. *)
Definition require_success : Instruction :=
  call "withdraw" "require" "require(success)" [expr "success" [] true] [].

Definition transfer_D : Instruction :=
  call "withdraw" "transfer" "token.transfer(msg.sender, amount)"
       [recipient; amount] [require_success].

(** Scenario E: the bare transfer inside [safeWithdraw]. *)
Definition transfer_E : Instruction :=
  call "safeWithdraw" "transfer" "token.transfer(msg.sender, amount)"
       [recipient; amount] [].


(** A call with no argument. *)
Definition burn_noargs : Instruction :=
  call "burn" "burn" "token.burn()" [] [].

(** The amount flows through a balance check of another account whose
    name starts with the letters of [this]. *)
Definition amount_other : Arg :=
  expr "amount"
       [point "require(token.balanceOf(thisUser) >= amount)";
        point "uint256 amount"] true.

Definition transfer_other : Instruction :=
  call "withdraw" "transfer" "token.transfer(msg.sender, amount)"
       [recipient; amount_other] [].

(** An amount whose backward trace cannot be computed. *)
Definition amount_notrace : Arg :=
  mkArg (Ok "amount") Raised (Some (Ok true)).

Definition transfer_notrace : Instruction :=
  call "withdraw" "transfer" "token.transfer(msg.sender, amount)"
       [recipient; amount_notrace] [].

(** A trace with a point whose text cannot be read, before the reserve
    check. *)
Definition broken_point : DfPoint := mkDfPoint Raised.

Definition amount_broken : Arg :=
  expr "amount"
       [point "uint256 amount"; broken_point;
        point "require(token.balanceOf(address(this)) >= amount)"] true.

Definition transfer_broken : Instruction :=
  call "withdraw" "transfer" "token.transfer(msg.sender, amount)"
       [recipient; amount_broken] [].

(** Amounts by their taint status: reported constant, not reported at
    all, and a report that raises. *)
Definition amount_const : Arg :=
  mkArg (Ok "FEE") (Ok Stop) (Some (Ok false)).

Definition amount_nostatus : Arg :=
  mkArg (Ok "amount") (Ok Stop) None.

Definition amount_badstatus : Arg :=
  mkArg (Ok "amount") (Ok Stop) (Some Raised).

Definition transfer_of (a : Arg) : Instruction :=
  call "withdraw" "transfer" "token.transfer(msg.sender, amount)"
       [recipient; a] [].

(** An amount whose literal cannot be read. *)
Definition amount_unreadable : Arg :=
  mkArg Raised (Ok (Yield (point "uint256 amount") Stop)) (Some (Ok true)).



(** A transfer followed by a [require] on a token balance. *)
Definition require_balance : Instruction :=
  call "withdraw" "require" "require(token.balanceOf(x) > 0)"
       [expr "token.balanceOf(x) > 0" [] true] [].

Definition transfer_then_balance : Instruction :=
  call "withdraw" "transfer" "token.transfer(msg.sender, amount)"
       [recipient; amount] [require_balance].

(** A transfer whose successors cannot be enumerated. *)
Definition transfer_nosucc : Instruction :=
  mkInstruction (Ok [recipient; amount]) (Ok ["transfer"])
                (Ok "token.transfer(msg.sender, amount)")
                (Ok (Some (fn "withdraw" []))) Raised.

(** An amount just below the largest [uint256]. *)
Definition amount_max_minus_fee : Arg :=
  expr "type(uint256).max - fee" [point "uint256 fee"] true.

(** A zero with white space around it. *)
Definition zero_padded : Arg := expr " 0 " [] true.

(** A transfer whose argument list cannot be read. *)
Definition transfer_noargs_list : Instruction :=
  mkInstruction Raised (Ok ["transfer"])
                (Ok "token.transfer(msg.sender, amount)")
                (Ok (Some (fn "withdraw" []))) (Ok Stop).

(** A successor whose callee names cannot be read. *)
Definition opaque_successor : Instruction :=
  mkInstruction (Ok []) Raised (Ok "require(success)")
                (Ok (Some (fn "withdraw" []))) (Ok Stop).

(** A transfer followed by that successor and then by
    [require(success)]. *)
Definition transfer_then_opaque : Instruction :=
  call "withdraw" "transfer" "token.transfer(msg.sender, amount)"
       [recipient; amount] [opaque_successor; require_success].

(** A successor that is no [require] or [assert]. *)
Definition emit_event : Instruction :=
  call "withdraw" "emit" "emit Withdrawn(msg.sender, amount, success)"
       [recipient; amount] [].

Definition transfer_then_emit : Instruction :=
  call "withdraw" "transfer" "token.transfer(msg.sender, amount)"
       [recipient; amount] [emit_event; require_success].

(** The same transfer with one more leading argument. *)
Definition transfer_from_B : Instruction :=
  call "withdraw" "transferFrom" "token.transferFrom(a, b, amount)"
       [recipient; recipient; amount_B] [].

(** Functions that step 1 of [query] must turn down, one for each
    condition, around one that it must take. *)
Definition mixed_contract : list Function :=
  [ mkFunction "withdraw" [INTERNAL] [] ["uint256"] [];
    mkFunction "withdraw" [PUBLIC; IS_VIEW] [] ["uint256"] [];
    mkFunction "withdraw" [EXTERNAL; IS_PURE] [] ["uint256"] [];
    mkFunction "withdraw" [EXTERNAL] ["onlyOwner"] ["uint256"] [];
    mkFunction "withdraw" [EXTERNAL] ["nonReentrant"] ["uint256"] [];
    mkFunction "withdraw" [EXTERNAL] ["whenNotPaused"] ["uint256"] [];
    mkFunction "withdraw" [EXTERNAL] ["lock"] ["uint256"] [];
    mkFunction "withdrawAll" [EXTERNAL] [] ["uint256"] [];
    mkFunction "withdraw" [EXTERNAL] [] ["address"] [];
    mkFunction "redeem" [EXTERNAL] ["onlyRole"] ["address"; "uint256"]
               [transfer_A] ].

End Sample.

Unset Implicit Arguments.

(** ** Facts about the text primitives *)

Section TextFacts.

Local Open Scope string_scope.

Lemma prefix_app (p s : string) :
  prefix p s = true <-> exists b, s = p ++ b.
Proof.
  revert s; induction p as [|c p IH]; intros s; destruct s as [|d s]; simpl.
  - split; [intros _; exists ""; reflexivity | reflexivity].
  - split; [intros _; exists (String d s); reflexivity | reflexivity].
  - split; [discriminate | intros [b Hb]; discriminate].
  - destruct (ascii_dec c d) as [->|Hne].
    + split.
      * intros H. apply IH in H. destruct H as [b Hb]. exists b; congruence.
      * intros [b Hb]. apply IH. exists b; congruence.
    + split; [discriminate | intros [b Hb]; congruence].
Qed.

(** [contains] is the substring relation. *)
Lemma contains_spec (p s : string) :
  PyStr.contains p s = true <-> exists a b, s = a ++ p ++ b.
Proof.
  induction s as [|c s IH]; cbn [PyStr.contains].
  - rewrite prefix_app. split.
    + intros [b Hb]. exists "", b. exact Hb.
    + intros [a [b H]]. destruct a; simpl in H.
      * exists b; exact H.
      * discriminate.
  - rewrite orb_true_iff, prefix_app, IH. split.
    + intros [[b Hb] | [a [b H]]].
      * exists "", b. exact Hb.
      * exists (String c a), b. simpl. now rewrite H.
    + intros [a [b H]]. destruct a as [|d a]; simpl in H.
      * left. exists b; exact H.
      * right. exists a, b. congruence.
Qed.

Lemma contains_app_r (p a s : string) :
  PyStr.contains p s = true -> PyStr.contains p (a ++ s) = true.
Proof.
  rewrite !contains_spec. intros [x [y H]].
  exists (a ++ x), y. subst s.
  clear. induction a; simpl; congruence.
Qed.

Lemma lstrip_split (s : string) :
  exists a, PyStr.all_space a = true /\ s = a ++ PyStr.lstrip s.
Proof.
  induction s as [|c s [a [Ha Hs]]]; simpl.
  - exists "". split; reflexivity.
  - destruct (PyStr.is_space c) eqn:Hc.
    + exists (String c a). simpl. rewrite Hc, Ha. split; [reflexivity | congruence].
    + exists "". split; reflexivity.
Qed.

Lemma rstrip_split (s : string) :
  exists b, PyStr.all_space b = true /\ s = PyStr.rstrip s ++ b.
Proof.
  induction s as [|c s [b [Hb Hs]]]; cbn [PyStr.rstrip].
  - exists "". split; reflexivity.
  - destruct (PyStr.rstrip s) as [|d r] eqn:Hr.
    + cbn [append] in Hs. subst b. destruct (PyStr.is_space c) eqn:Hc.
      * exists (String c s). cbn [PyStr.all_space append].
        rewrite Hc, Hb. split; reflexivity.
      * exists s. split; [assumption | reflexivity].
    + exists b. split; [assumption|].
      cbn [append]. f_equal. exact Hs.
Qed.

Lemma rstrip_all_space (s : string) :
  PyStr.all_space s = true -> PyStr.rstrip s = "".
Proof.
  induction s as [|c s IH]; simpl; [reflexivity|].
  rewrite andb_true_iff. intros [Hc Hs]. now rewrite (IH Hs), Hc.
Qed.

Lemma lstrip_space_app (a s : string) :
  PyStr.all_space a = true -> PyStr.lstrip (a ++ s) = PyStr.lstrip s.
Proof.
  induction a as [|c a IH]; simpl; [reflexivity|].
  rewrite andb_true_iff. intros [Hc Ha]. now rewrite Hc, IH.
Qed.

(** The exact-zero test of [is_amount_constant_zero]: the text is [0]
    with white space around it and nothing else. *)
Lemma strip_is_zero (s : string) :
  PyStr.strip s = "0"
  <-> exists a b, PyStr.all_space a = true /\ PyStr.all_space b = true
                  /\ s = a ++ "0" ++ b.
Proof.
  unfold PyStr.strip. split.
  - intros H.
    destruct (lstrip_split s) as [a [Ha Hs]].
    destruct (rstrip_split (PyStr.lstrip s)) as [b [Hb Hl]].
    exists a, b. rewrite H in Hl. repeat split; try assumption.
    rewrite Hs at 1. now rewrite Hl.
  - intros [a [b [Ha [Hb ->]]]].
    rewrite lstrip_space_app by assumption. simpl.
    now rewrite (rstrip_all_space _ Hb).
Qed.

End TextFacts.

Example contains_ex1 : PyStr.contains "ok" "token" = true.
Proof. reflexivity. Qed.

Example contains_ex2 : PyStr.contains "" "" = true.
Proof. reflexivity. Qed.

Example contains_ex3 : PyStr.contains "this" "address(THIS)" = false.
Proof. reflexivity. Qed.

Example lower_ex1 : PyStr.lower "token.balanceOf(X)" = "token.balanceof(x)".
Proof. reflexivity. Qed.

Example strip_ex1 : PyStr.strip "  0 " = "0".
Proof. reflexivity. Qed.

Example strip_ex2 : PyStr.strip " 0 0 " = "0 0".
Proof. reflexivity. Qed.

(** ** The scenarios of the specification, run on the model *)

Example scenario_A :
  query [Sample.fn "withdraw" [Sample.transfer_A]] = Ok [Sample.transfer_A].
Proof. vm_compute. reflexivity. Qed.

Example scenario_B :
  query [Sample.fn "withdraw" [Sample.transfer_B]] = Ok [].
Proof. vm_compute. reflexivity. Qed.

Example scenario_C :
  query [Sample.fn "withdraw" [Sample.transfer_C]] = Ok [].
Proof. vm_compute. reflexivity. Qed.

Example scenario_D :
  query [Sample.fn "withdraw" [Sample.transfer_D; Sample.require_success]]
  = Ok [].
Proof. vm_compute. reflexivity. Qed.

Example scenario_E :
  query [Sample.fn "safeWithdraw" [Sample.transfer_E]] = Ok [].
Proof. vm_compute. reflexivity. Qed.

Example scenario_guarded_function :
  query [mkFunction "withdraw" [EXTERNAL] ["nonReentrant"] ["uint256"]
                    [Sample.transfer_A]] = Ok [].
Proof. vm_compute. reflexivity. Qed.

(** ** Facts about lists, iterators and the host operators *)

Section ListFacts.

Context {A : Type}.

Lemma py_last_app (l : list A) (a : A) : py_last (l ++ [a]) = Some a.
Proof.
  induction l as [|b l IH]; [reflexivity|].
  cbn [app py_last]. destruct (l ++ [a]) eqn:E; [|exact IH].
  destruct l; discriminate.
Qed.

Lemma py_last_nonempty (l : list A) (a : A) :
  py_last l = Some a -> Nat.eqb (List.length l) 0 = false.
Proof. destruct l; [discriminate | reflexivity]. Qed.

Lemma py_last_exists (l : list A) :
  l <> [] -> exists a, py_last l = Some a.
Proof.
  induction l as [|b l IH]; [congruence|]. intros _.
  destruct l as [|c l]; [exists b; reflexivity|].
  destruct IH as [a Ha]; [discriminate|]. exists a. exact Ha.
Qed.

Lemma is_prefix_refl (l : list A) : is_prefix l l.
Proof. exists []. now rewrite app_nil_r. Qed.

Lemma is_prefix_incl (l1 l2 : list A) : is_prefix l1 l2 -> incl l1 l2.
Proof. intros [ext ->]. apply incl_appl, incl_refl. Qed.

Lemma is_prefix_firstn (n m : nat) (l : list A) :
  n <= m -> is_prefix (firstn n l) (firstn m l).
Proof.
  revert m l; induction n as [|n IH]; intros m l Hle.
  - exists (firstn m l). reflexivity.
  - destruct m as [|m]; [lia|]. destruct l as [|a l].
    + exists []. reflexivity.
    + destruct (IH m l) as [ext Hext]; [lia|].
      exists ext. cbn [firstn app]. now rewrite Hext.
Qed.

Lemma is_prefix_firstn_app (n m : nat) (l ext : list A) :
  n <= m -> is_prefix (firstn n l) (firstn m (l ++ ext)).
Proof.
  intros Hle. destruct (is_prefix_firstn n m l Hle) as [e1 He1].
  rewrite firstn_app, He1.
  exists (e1 ++ firstn (m - List.length l) ext). now rewrite app_assoc.
Qed.

Lemma is_prefix_filter (f : A -> bool) (l1 l2 : list A) :
  is_prefix l1 l2 -> is_prefix (filter f l1) (filter f l2).
Proof. intros [ext ->]. exists (filter f ext). apply filter_app. Qed.

Lemma filter_py_app (f : A -> result bool) (l ext : list A) (r' : list A) :
  Glider.filter_py f (l ++ ext) = Ok r' ->
  exists r, Glider.filter_py f l = Ok r /\ is_prefix r r'.
Proof.
  revert r'; induction l as [|a l IH]; intros r' H.
  - exists []. split; [reflexivity | exists r'; reflexivity].
  - cbn [app Glider.filter_py] in H |- *.
    destruct (f a) as [b|]; [|discriminate].
    destruct (Glider.filter_py f (l ++ ext)) as [r0|] eqn:E; [|discriminate].
    destruct (IH r0 eq_refl) as [r [Hr [e He]]].
    rewrite Hr. injection H as <-.
    exists (if b then a :: r else r). split; [reflexivity|].
    exists e. subst r0. destruct b; reflexivity.
Qed.

Lemma filter_py_In (f : A -> result bool) (l r : list A) (x : A) :
  Glider.filter_py f l = Ok r -> In x r -> In x l /\ f x = Ok true.
Proof.
  revert r; induction l as [|a l IH]; intros r H Hin.
  - injection H as <-. contradiction.
  - cbn [Glider.filter_py] in H.
    destruct (f a) as [b|] eqn:Ea; [|discriminate].
    destruct (Glider.filter_py f l) as [r0|]; [|discriminate].
    injection H as <-. destruct b.
    + destruct Hin as [<-|Hin]; [split; [left; reflexivity | exact Ea]|].
      destruct (IH r0 eq_refl Hin). split; [right|]; assumption.
    + destruct (IH r0 eq_refl Hin). split; [right|]; assumption.
Qed.

Lemma Visits_yield_all (pre : list A) (a : A) (rest : PyIter A) :
  Visits (yield_all pre (Yield a rest)) pre a.
Proof. induction pre; cbn [yield_all]; constructor; assumption. Qed.

Lemma Visits_inv (it : PyIter A) (pre : list A) (a : A) :
  Visits it pre a -> exists rest, it = yield_all pre (Yield a rest).
Proof.
  induction 1 as [a rest | b rest pre a _ [rest' ->]].
  - exists rest. reflexivity.
  - exists rest'. reflexivity.
Qed.

End ListFacts.

Lemma filter_filter_and {A : Type} (f g : A -> bool) (l : list A) :
  filter f (filter g l) = filter (fun x => g x && f x) l.
Proof.
  induction l as [|a l IH]; [reflexivity|].
  cbn [filter]. destruct (g a); cbn [filter andb]; now rewrite IH.
Qed.

Lemma flat_map_is_prefix {A B : Type} (f : A -> list B) (l1 l2 : list A) :
  is_prefix l1 l2 -> is_prefix (flat_map f l1) (flat_map f l2).
Proof. intros [ext ->]. exists (flat_map f ext). apply flat_map_app. Qed.

(** ** The reserve check *)

Section ReserveCheck.

Lemma str_app_assoc (a b c : string) :
  ((a ++ b) ++ c)%string = (a ++ b ++ c)%string.
Proof. induction a; cbn [append]; congruence. Qed.

(** The second disjunct of the self-reference test subsumes the first. *)
Lemma mentions_this_contains (text : string) :
  mentions_this text = PyStr.contains "this" text.
Proof.
  unfold mentions_this.
  destruct (PyStr.contains "address(this)" text) eqn:E; [|reflexivity].
  symmetry. apply contains_spec in E. destruct E as [a [b ->]].
  apply contains_spec. exists (a ++ "address(")%string, (")" ++ b)%string.
  rewrite str_app_assoc. reflexivity.
Qed.

Lemma word_occurs_contains (w s : string) (after_ident : bool) :
  word_occurs_from after_ident w s = true -> PyStr.contains w s = true.
Proof.
  revert after_ident; induction s as [|c s IH]; intros b; [discriminate|].
  cbn [word_occurs_from PyStr.contains]. rewrite !orb_true_iff, !andb_true_iff.
  intros [[[_ H] _] | H]; [left; exact H | right; exact (IH _ H)].
Qed.

(** Whatever the spec counts as a self-reference, the code counts too. *)
Lemma self_reference_spec_contains (text : string) :
  self_reference_spec text = true -> PyStr.contains "this" text = true.
Proof. apply word_occurs_contains. Qed.

Lemma scan_backward_flow_step (p : DfPoint) (rest : PyIter DfPoint) :
  scan_backward_flow (Yield p rest)
  = if point_guards p then false else scan_backward_flow rest.
Proof.
  cbn [scan_backward_flow]. unfold point_guards.
  destruct (point_source_code p) as [text|]; [|reflexivity].
  fold (has_reserve_vocabulary text). fold (mentions_this text).
  destruct (has_reserve_vocabulary text), (mentions_this text); reflexivity.
Qed.

Lemma point_guards_iff (p : DfPoint) :
  point_guards p = true
  <-> exists text, point_source_code p = Ok text
                   /\ has_reserve_vocabulary text = true
                   /\ PyStr.contains "this" text = true.
Proof.
  unfold point_guards. destruct (point_source_code p) as [text|].
  - rewrite andb_true_iff, mentions_this_contains. split.
    + intros [H1 H2]. exists text. auto.
    + intros [t [[= <-] H]]. exact H.
  - split; [discriminate | intros [t [[=] _]]].
Qed.

Lemma scan_backward_flow_false (flow : PyIter DfPoint) :
  scan_backward_flow flow = false
  <-> reserve_evidence (PyStr.contains "this") flow.
Proof.
  unfold reserve_evidence. induction flow as [| |p rest IH].
  - split; [discriminate | intros (pre & q & t & H & _); inversion H].
  - split; [discriminate | intros (pre & q & t & H & _); inversion H].
  - rewrite scan_backward_flow_step. destruct (point_guards p) eqn:Hp.
    + split; [intros _ | reflexivity].
      apply point_guards_iff in Hp. destruct Hp as [t Ht].
      exists [], p, t. split; [constructor | exact Ht].
    + rewrite IH. split.
      * intros (pre & q & t & H & Ht). exists (p :: pre), q, t.
        split; [constructor; exact H | exact Ht].
      * intros (pre & q & t & H & Ht). inversion H; subst.
        -- assert (point_guards q = true) as Hq
             by (apply point_guards_iff; exists t; exact Ht).
           congruence.
        -- eexists _, q, t. split; [eassumption | exact Ht].
Qed.

Lemma lacks_reserve_check_scan (ins : Instruction) (args : list Arg)
    (a : Arg) (flow : PyIter DfPoint) :
  get_args ins = Ok args -> py_last args = Some a ->
  backward_df a = Ok flow ->
  lacks_reserve_check ins = scan_backward_flow flow.
Proof.
  intros Hargs Hlast Hflow. unfold lacks_reserve_check.
  now rewrite Hargs, (py_last_nonempty _ _ Hlast), Hlast, Hflow.
Qed.

Lemma scan_backward_flow_fails (pre : list DfPoint) :
  forallb (fun p => negb (point_guards p)) pre = true ->
  scan_backward_flow (yield_all pre Fails) = true.
Proof.
  induction pre as [|q pre IH]; [reflexivity|].
  cbn [forallb yield_all]. rewrite andb_true_iff. intros [Hq Hpre].
  rewrite scan_backward_flow_step.
  destruct (point_guards q); [discriminate | exact (IH Hpre)].
Qed.

Lemma scan_backward_flow_skip (pre : list DfPoint) (p : DfPoint)
    (rest : PyIter DfPoint) :
  point_source_code p = Raised ->
  scan_backward_flow (yield_all pre (Yield p rest))
  = scan_backward_flow (yield_all pre rest).
Proof.
  intros Hp. induction pre as [|q pre IH]; cbn [yield_all].
  - rewrite scan_backward_flow_step. unfold point_guards. now rewrite Hp.
  - rewrite !scan_backward_flow_step. now rewrite IH.
Qed.

End ReserveCheck.

(** ** What the pipeline keeps *)

Lemma query_with_caps_In (fcap icap : nat) (contract : list Function)
    (r : list Instruction) (ins : Instruction) :
  query_with_caps fcap icap contract = Ok r -> In ins r ->
  is_outflow ins = Ok true
  /\ is_vulnerable ins = true
  /\ survives_filters ins = true.
Proof.
  unfold query_with_caps.
  destruct (Glider.filter_py is_outflow _) as [t|] eqn:Et; [|discriminate].
  intros [= <-] Hin.
  apply filter_In in Hin. destruct Hin as [Hin Hs].
  apply filter_In in Hin. destruct Hin as [Hin Hv].
  destruct (filter_py_In _ _ _ _ Et Hin) as [_ Ho].
  auto.
Qed.

(** X13.  What [lacks_reserve_check] computes on an instruction with
    at least one argument whose amount has a backward trace: it returns
    [False] exactly when the loop reaches a point whose text can be
    read, has a word of the reserve vocabulary (compared in lower case)
    and has the letters [this] somewhere in it; it returns at the first
    such point, whatever the iterator would do after it.  A point that
    has the keyword [this] as a word of its own is one of them. *)
Theorem lacks_reserve_check_false_iff
    (ins : Instruction) (args : list Arg) (amount_arg : Arg)
    (flow : PyIter DfPoint) :
  get_args ins = Ok args ->
  py_last args = Some amount_arg ->
  backward_df amount_arg = Ok flow ->
  (lacks_reserve_check ins = false
   <-> reserve_evidence (PyStr.contains "this") flow)
  /\ (forall pre p rest,
        flow = yield_all pre (Yield p rest) ->
        point_guards p = true ->
        lacks_reserve_check ins = false)
  /\ (reserve_evidence self_reference_spec flow ->
      lacks_reserve_check ins = false).
Proof.
  intros Hargs Hlast Hflow.
  rewrite (lacks_reserve_check_scan _ _ _ _ Hargs Hlast Hflow).
  split; [apply scan_backward_flow_false|]. split.
  - intros pre p rest -> Hp. apply scan_backward_flow_false.
    apply point_guards_iff in Hp. destruct Hp as [t Ht].
    exists pre, p, t. split; [apply Visits_yield_all | exact Ht].
  - intros (pre & p & t & Hv & Hs & Hvoc & Hself).
    apply scan_backward_flow_false. exists pre, p, t.
    auto using self_reference_spec_contains.
Qed.

Lemma lacks_reserve_check_false_iff_witness :
  lacks_reserve_check Sample.transfer_B = false
  <-> reserve_evidence (PyStr.contains "this")
        (yield_all
           [Sample.point "require(token.balanceOf(address(this)) >= amount)";
            Sample.point "uint256 amount"] Stop).
Proof.
  exact (proj1 (lacks_reserve_check_false_iff
                  Sample.transfer_B [Sample.recipient; Sample.amount_B]
                  Sample.amount_B _ eq_refl eq_refl eq_refl)).
Defined.

(** C1.  The code breaks the claim, and its own comment ("verify it
    checks the contract's own balance (address(this))"): the amount of
    [Sample.transfer_other] flows through
    [require(token.balanceOf(thisUser) >= amount)], a balance check of
    another account.  The test ['this' in text] is passed by the
    identifier [thisUser], so [lacks_reserve_check] returns [False],
    though no point of the trace refers to the contract itself. *)
Lemma lacks_reserve_check_other_account :
  ~ (lacks_reserve_check Sample.transfer_other = false
     <-> reserve_evidence self_reference_spec
           (yield_all
              [Sample.point "require(token.balanceOf(thisUser) >= amount)";
               Sample.point "uint256 amount"] Stop)).
Proof.
  intros [H _]. destruct (H eq_refl) as (pre & p & t & Hv & Hs & _ & Hself).
  cbn [yield_all] in Hv. inversion Hv as [|? ? ? ? Hv']; subst.
  - injection Hs as <-. discriminate Hself.
  - inversion Hv' as [|? ? ? ? Hv'']; subst.
    + injection Hs as <-. discriminate Hself.
    + inversion Hv''.
Qed.

(** C2.  An instruction with zero arguments is inert: both analyses
    return [False] on it, and it is in no result of [query]. *)
Theorem zero_arguments_inert (ins : Instruction) :
  get_args ins = Ok [] ->
  lacks_reserve_check ins = false
  /\ has_global_df_in_amount ins = false
  /\ (forall contract r, query contract = Ok r -> ~ In ins r).
Proof.
  intros Hargs. assert (lacks_reserve_check ins = false) as Hl
    by (unfold lacks_reserve_check; now rewrite Hargs).
  split; [exact Hl|]. split.
  - unfold has_global_df_in_amount. now rewrite Hargs.
  - intros contract r Hq Hin.
    destruct (query_with_caps_In _ _ _ _ _ Hq Hin) as (_ & Hv & _).
    unfold is_vulnerable in Hv. rewrite Hl in Hv. discriminate.
Qed.

Lemma zero_arguments_inert_witness :
  lacks_reserve_check Sample.burn_noargs = false
  /\ has_global_df_in_amount Sample.burn_noargs = false
  /\ ~ In Sample.burn_noargs [Sample.transfer_A].
Proof.
  destruct (zero_arguments_inert Sample.burn_noargs eq_refl) as (H1 & H2 & H3).
  split; [exact H1|]. split; [exact H2|].
  apply (H3 [Sample.fn "burn" [Sample.burn_noargs];
             Sample.fn "withdraw" [Sample.transfer_A]]).
  vm_compute. reflexivity.
Defined.

(** C3.  For an instruction with at least one argument: when the
    backward trace of the amount cannot be computed, or its iterator
    raises before any reserve check was seen, [lacks_reserve_check]
    returns [True]; and a point whose text cannot be read is skipped, the
    result being the one the loop gives on the trace without it. *)
Theorem lacks_reserve_check_fail_closed
    (ins : Instruction) (args : list Arg) (amount_arg : Arg) :
  get_args ins = Ok args ->
  py_last args = Some amount_arg ->
  (backward_df amount_arg = Raised -> lacks_reserve_check ins = true)
  /\ (forall pre,
        backward_df amount_arg = Ok (yield_all pre Fails) ->
        forallb (fun p => negb (point_guards p)) pre = true ->
        lacks_reserve_check ins = true)
  /\ (forall pre p rest,
        backward_df amount_arg = Ok (yield_all pre (Yield p rest)) ->
        point_source_code p = Raised ->
        lacks_reserve_check ins = scan_backward_flow (yield_all pre rest)).
Proof.
  intros Hargs Hlast. split; [|split].
  - intros Hdf. unfold lacks_reserve_check.
    now rewrite Hargs, (py_last_nonempty _ _ Hlast), Hlast, Hdf.
  - intros pre Hdf Hpre.
    rewrite (lacks_reserve_check_scan _ _ _ _ Hargs Hlast Hdf).
    exact (scan_backward_flow_fails pre Hpre).
  - intros pre p rest Hdf Hp.
    rewrite (lacks_reserve_check_scan _ _ _ _ Hargs Hlast Hdf).
    exact (scan_backward_flow_skip pre p rest Hp).
Qed.

Lemma lacks_reserve_check_fail_closed_witness :
  lacks_reserve_check Sample.transfer_notrace = true
  /\ lacks_reserve_check Sample.transfer_broken
     = scan_backward_flow
         (yield_all
            [Sample.point "uint256 amount"]
            (Yield (Sample.point
                      "require(token.balanceOf(address(this)) >= amount)")
                   Stop)).
Proof.
  split.
  - exact (proj1 (lacks_reserve_check_fail_closed
                    Sample.transfer_notrace
                    [Sample.recipient; Sample.amount_notrace]
                    Sample.amount_notrace eq_refl eq_refl) eq_refl).
  - exact (proj2 (proj2 (lacks_reserve_check_fail_closed
                    Sample.transfer_broken
                    [Sample.recipient; Sample.amount_broken]
                    Sample.amount_broken eq_refl eq_refl))
                 [Sample.point "uint256 amount"] Sample.broken_point _
                 eq_refl eq_refl).
Defined.

(** ** The taint check *)

(** C4.  For an instruction with at least one argument,
    [has_global_df_in_amount] returns [False] only when the host reports
    the amount as not externally influenced; it returns [True] when the
    host reports it as influenced, when the amount has no
    [has_global_df] to ask, and when asking raises. *)
Theorem has_global_df_in_amount_fail_closed
    (ins : Instruction) (args : list Arg) (amount_arg : Arg) :
  get_args ins = Ok args ->
  py_last args = Some amount_arg ->
  (has_global_df_in_amount ins = false
   <-> has_global_df amount_arg = Some (Ok false))
  /\ (has_global_df amount_arg = Some (Ok true) ->
      has_global_df_in_amount ins = true)
  /\ (has_global_df amount_arg = None ->
      has_global_df_in_amount ins = true)
  /\ (has_global_df amount_arg = Some Raised ->
      has_global_df_in_amount ins = true).
Proof.
  intros Hargs Hlast. unfold has_global_df_in_amount.
  rewrite Hargs, (py_last_nonempty _ _ Hlast), Hlast.
  destruct (has_global_df amount_arg) as [[[|]|]|];
    repeat split; intros; congruence.
Qed.

Lemma has_global_df_in_amount_fail_closed_witness :
  (has_global_df_in_amount (Sample.transfer_of Sample.amount_const) = false
   <-> has_global_df Sample.amount_const = Some (Ok false))
  /\ has_global_df_in_amount Sample.transfer_A = true
  /\ has_global_df_in_amount (Sample.transfer_of Sample.amount_nostatus) = true
  /\ has_global_df_in_amount (Sample.transfer_of Sample.amount_badstatus) = true.
Proof.
  split; [|split; [|split]].
  - exact (proj1 (has_global_df_in_amount_fail_closed
                    (Sample.transfer_of Sample.amount_const)
                    [Sample.recipient; Sample.amount_const]
                    Sample.amount_const eq_refl eq_refl)).
  - exact (proj1 (proj2 (has_global_df_in_amount_fail_closed
                    Sample.transfer_A [Sample.recipient; Sample.amount]
                    Sample.amount eq_refl eq_refl)) eq_refl).
  - exact (proj1 (proj2 (proj2 (has_global_df_in_amount_fail_closed
                    (Sample.transfer_of Sample.amount_nostatus)
                    [Sample.recipient; Sample.amount_nostatus]
                    Sample.amount_nostatus eq_refl eq_refl))) eq_refl).
  - exact (proj2 (proj2 (proj2 (has_global_df_in_amount_fail_closed
                    (Sample.transfer_of Sample.amount_badstatus)
                    [Sample.recipient; Sample.amount_badstatus]
                    Sample.amount_badstatus eq_refl eq_refl))) eq_refl).
Defined.

(** When the argument list itself cannot be read, the amount counts as
    externally influenced and as lacking a reserve check. *)
Lemma no_argument_list_fail_closed (ins : Instruction) :
  get_args ins = Raised ->
  lacks_reserve_check ins = true /\ has_global_df_in_amount ins = true.
Proof.
  intros H. unfold lacks_reserve_check, has_global_df_in_amount.
  now rewrite H.
Qed.

(** ** The false-positive filter *)

Lemma survives_filters_excluded (ins : Instruction) :
  is_protected_by_safe_wrapper ins = true
  \/ has_post_transfer_revert_guard ins = true
  \/ is_amount_constant_zero ins = true ->
  forall contract r, query contract = Ok r -> ~ In ins r.
Proof.
  intros H contract r Hq Hin.
  destruct (query_with_caps_In _ _ _ _ _ Hq Hin) as (_ & _ & Hs).
  unfold survives_filters in Hs.
  apply andb_true_iff in Hs. destruct Hs as [Hs H3].
  apply andb_true_iff in Hs. destruct Hs as [H1 H2].
  destruct H as [H|[H|H]]; rewrite H in *; discriminate.
Qed.

(** C5.  When the literal text of the amount is exactly [0],
    [is_amount_constant_zero] returns [True] and the instruction is in no
    result of [query], whatever the other stages say; when the literal
    cannot be read it returns [False]. *)
Theorem constant_zero_excluded
    (ins : Instruction) (args : list Arg) (amount_arg : Arg) :
  get_args ins = Ok args ->
  py_last args = Some amount_arg ->
  (arg_source_code amount_arg = Ok "0" ->
   is_amount_constant_zero ins = true
   /\ forall contract r, query contract = Ok r -> ~ In ins r)
  /\ (arg_source_code amount_arg = Raised ->
      is_amount_constant_zero ins = false).
Proof.
  intros Hargs Hlast.
  assert (forall src, arg_source_code amount_arg = src ->
            is_amount_constant_zero ins
            = match src with
              | Raised => false
              | Ok source =>
                  if String.eqb (PyStr.strip source) "0"
                     || PyStr.contains "uint256).max" source
                  then true else false
              end) as Hz.
  { intros src <-. unfold is_amount_constant_zero.
    now rewrite Hargs, (py_last_nonempty _ _ Hlast), Hlast. }
  split.
  - intros Hsrc. assert (is_amount_constant_zero ins = true) as H
      by (rewrite (Hz _ Hsrc); reflexivity).
    split; [exact H|]. apply survives_filters_excluded. auto.
  - intros Hsrc. now rewrite (Hz _ Hsrc).
Qed.

Lemma constant_zero_excluded_witness :
  (is_amount_constant_zero Sample.transfer_C = true
   /\ ~ In Sample.transfer_C [Sample.transfer_A])
  /\ is_amount_constant_zero (Sample.transfer_of Sample.amount_unreadable)
     = false.
Proof.
  split.
  - destruct (proj1 (constant_zero_excluded
                       Sample.transfer_C [Sample.recipient; Sample.zero]
                       Sample.zero eq_refl eq_refl) eq_refl) as [H1 H2].
    split; [exact H1|].
    apply (H2 [Sample.fn "withdraw" [Sample.transfer_C; Sample.transfer_A]]).
    vm_compute. reflexivity.
  - exact (proj2 (constant_zero_excluded
                    (Sample.transfer_of Sample.amount_unreadable)
                    [Sample.recipient; Sample.amount_unreadable]
                    Sample.amount_unreadable eq_refl eq_refl) eq_refl).
Defined.



(** ** The bounds of the pipeline *)

Lemma mem_In (x : string) (l : list string) :
  PyStr.mem x l = true <-> In x l.
Proof.
  unfold PyStr.mem. rewrite existsb_exists. split.
  - intros [y [Hy E]]. apply String.eqb_eq in E. now subst y.
  - intros H. exists x. split; [exact H | apply String.eqb_refl].
Qed.

Lemma candidate_functions_firstn (fcap : nat) (contract : list Function) :
  candidate_functions fcap contract
  = firstn fcap (filter is_candidate contract).
Proof.
  unfold candidate_functions, Glider.exec, Glider.with_arg_type,
    Glider.with_one_of_the_names, Glider.without_modifier_names,
    Glider.without_properties, Glider.with_one_property.
  rewrite !filter_filter_and. f_equal. apply filter_ext.
  intros f. unfold is_candidate. cbn [existsb].
  now rewrite !orb_false_r, !andb_assoc.
Qed.

Lemma candidate_functions_is_prefix (fcap fcap' : nat) (contract : list Function) :
  fcap <= fcap' ->
  is_prefix (candidate_functions fcap contract)
            (candidate_functions fcap' contract).
Proof. intros H. apply is_prefix_firstn, H. Qed.

Lemma extracted_is_prefix (fcap fcap' icap icap' : nat)
    (contract : list Function) :
  fcap <= fcap' -> icap <= icap' ->
  is_prefix
    (Glider.exec icap
       (Glider.instructions_of (candidate_functions fcap contract)))
    (Glider.exec icap'
       (Glider.instructions_of (candidate_functions fcap' contract))).
Proof.
  intros Hf Hi.
  destruct (flat_map_is_prefix instructions _ _
              (candidate_functions_is_prefix fcap fcap' contract Hf))
    as [ext Hext].
  unfold Glider.instructions_of, Glider.exec. rewrite Hext.
  apply is_prefix_firstn_app, Hi.
Qed.

(** C7.  With larger bounds on the candidate functions and on the
    extracted instructions, the pipeline only adds findings: when the run
    with the larger bounds returns, so does the run with the smaller
    ones, and what it returns is an initial segment, hence a subset, of
    the larger result. *)
Theorem caps_monotone (fcap fcap' icap icap' : nat)
    (contract : list Function) (r' : list Instruction) :
  fcap <= fcap' -> icap <= icap' ->
  query_with_caps fcap' icap' contract = Ok r' ->
  exists r,
    query_with_caps fcap icap contract = Ok r
    /\ is_prefix r r'
    /\ incl r r'.
Proof.
  intros Hf Hi. unfold query_with_caps.
  destruct (extracted_is_prefix fcap fcap' icap icap' contract Hf Hi)
    as [ext ->].
  destruct (Glider.filter_py is_outflow (_ ++ ext)) as [t'|] eqn:Et';
    [|discriminate].
  intros [= <-].
  destruct (filter_py_app _ _ _ _ Et') as [t [-> Hpre]].
  eexists. split; [reflexivity|].
  assert (is_prefix (filter survives_filters (filter is_vulnerable t))
                    (filter survives_filters (filter is_vulnerable t'))) as H
    by (apply is_prefix_filter, is_prefix_filter, Hpre).
  split; [exact H | apply is_prefix_incl, H].
Qed.

Lemma caps_monotone_witness :
  exists r,
    query_with_caps 1 1
      [Sample.fn "withdraw" [Sample.transfer_A; Sample.transfer_B];
       Sample.fn "redeem" [Sample.transfer_A]] = Ok r
    /\ is_prefix r [Sample.transfer_A; Sample.transfer_A]
    /\ incl r [Sample.transfer_A; Sample.transfer_A].
Proof.
  apply (caps_monotone 1 500 1 1000).
  - repeat constructor.
  - repeat constructor.
  - vm_compute. reflexivity.
Defined.

(** C8.  The candidate selection of [query] returns the functions that
    are public or external, not pure or view, carry none of the
    modifiers [onlyOwner], [nonReentrant], [whenNotPaused], [lock], have
    one of the fourteen names of the vocabulary and declare a [uint256]
    parameter, in their order, cut after the first 500; the rest of
    [query] runs on these functions. *)
Theorem candidate_functions_exact :
  exists selected : Function -> bool,
    (forall f,
        selected f = true
        <-> (In PUBLIC (properties f) \/ In EXTERNAL (properties f))
            /\ ~ (In IS_PURE (properties f) \/ In IS_VIEW (properties f))
            /\ ~ (In "onlyOwner" (modifier_names f)
                  \/ In "nonReentrant" (modifier_names f)
                  \/ In "whenNotPaused" (modifier_names f)
                  \/ In "lock" (modifier_names f))
            /\ In (name f)
                  [ "withdraw"; "redeem"; "burn"; "transferFrom";
                    "safeWithdraw"; "exitMarket"; "borrow"; "redeemShares";
                    "unstake"; "claim"; "liquidate"; "seize"; "exit";
                    "removeLiquidity" ]
            /\ In "uint256" (arg_types f))
    /\ (forall contract,
          candidate_functions 500 contract
          = firstn 500 (filter selected contract)
          /\ List.length (candidate_functions 500 contract) <= 500
          /\ query contract
             = analyse_candidates 1000 (firstn 500 (filter selected contract))).
Proof.
  exists is_candidate. split.
  - intros f.
    assert (forall p, Glider.has_property f p = true <-> In p (properties f))
      as Hp.
    { intros p. unfold Glider.has_property. rewrite existsb_exists. split.
      - intros [q [Hq E]]. destruct p, q; try discriminate E; exact Hq.
      - intros H. exists p. split; [exact H | destruct p; reflexivity]. }
    assert ((Glider.has_property f PUBLIC || Glider.has_property f EXTERNAL)
            = true
            <-> In PUBLIC (properties f) \/ In EXTERNAL (properties f)) as H1
      by (rewrite orb_true_iff, !Hp; tauto).
    assert (negb (Glider.has_property f IS_PURE
                  || Glider.has_property f IS_VIEW) = true
            <-> ~ (In IS_PURE (properties f) \/ In IS_VIEW (properties f)))
      as H2
      by (rewrite negb_true_iff, <- not_true_iff_false, orb_true_iff, !Hp;
          tauto).
    assert (negb (existsb (fun m => PyStr.mem m (modifier_names f))
                          guarded_modifiers) = true
            <-> ~ (In "onlyOwner" (modifier_names f)
                   \/ In "nonReentrant" (modifier_names f)
                   \/ In "whenNotPaused" (modifier_names f)
                   \/ In "lock" (modifier_names f))) as H3.
    { unfold guarded_modifiers. cbn [existsb].
      rewrite negb_true_iff, <- not_true_iff_false, !orb_true_iff, !mem_In.
      intuition discriminate. }
    unfold is_candidate.
    rewrite !andb_true_iff, H1, H2, H3, !mem_In. unfold candidate_names.
    tauto.
  - intros contract. rewrite candidate_functions_firstn.
    split; [reflexivity|]. split; [apply firstn_le_length|].
    unfold query, query_with_caps, analyse_candidates.
    now rewrite candidate_functions_firstn.
Qed.

Lemma candidate_functions_exact_witness :
  exists selected : Function -> bool,
    selected (mkFunction "withdraw" [EXTERNAL] ["nonReentrant"] ["uint256"] [])
    <> true
    /\ selected (mkFunction "redeem" [EXTERNAL] ["onlyRole"]
                            ["address"; "uint256"] [Sample.transfer_A])
       = true
    /\ candidate_functions 500 Sample.mixed_contract
       = firstn 500 (filter selected Sample.mixed_contract).
Proof.
  destruct candidate_functions_exact as [selected [Hiff Hc]].
  exists selected. split; [|split].
  - intros H. apply Hiff in H. destruct H as (_ & _ & Hm & _).
    apply Hm. right. left. left. reflexivity.
  - apply Hiff. split; [right; left; reflexivity|].
    split; [intros [[H|[]]|[H|[]]]; discriminate H|].
    split; [intros [[H|[]]|[[H|[]]|[[H|[]]|[H|[]]]]]; discriminate H|].
    split; [right; left; reflexivity | right; left; reflexivity].
  - apply Hc.
Defined.

Example candidate_functions_mixed :
  candidate_functions 500 Sample.mixed_contract
  = [ mkFunction "redeem" [EXTERNAL] ["onlyRole"] ["address"; "uint256"]
                 [Sample.transfer_A] ].
Proof. vm_compute. reflexivity. Qed.

Example candidate_functions_cut :
  List.length (candidate_functions 500 (repeat (Sample.fn "withdraw" []) 501))
  = 500.
Proof. vm_compute. reflexivity. Qed.

Lemma candidate_functions_In (contract : list Function) (f : Function) :
  In f (candidate_functions 500 contract) ->
  In f contract /\ is_candidate f = true.
Proof.
  rewrite candidate_functions_firstn. intros H.
  apply (is_prefix_incl _ _ (ex_intro _ _ (eq_sym (firstn_skipn 500 _)))) in H.
  apply filter_In in H. exact H.
Qed.

(** ** The revert guard *)

Section RevertGuard.

Lemma is_revert_guard_b (s : Instruction) :
  is_revert_guard s <-> revert_guard_b s = true.
Proof.
  unfold is_revert_guard, revert_guard_b. split.
  - intros (callees & text & -> & Hc & -> & Ht). now rewrite Hc, Ht.
  - destruct (callee_names s) as [callees|]; [|discriminate].
    destruct (source_code s) as [text|]; [|discriminate].
    rewrite andb_true_iff. intros [Hc Ht]. exists callees, text. auto.
Qed.

Lemma scan_next_instructions_step (s : Instruction) (rest : PyIter Instruction) :
  scan_next_instructions (Yield s rest)
  = match callee_names s with
    | Raised => false
    | Ok _ => if revert_guard_b s then true else scan_next_instructions rest
    end.
Proof.
  cbn [scan_next_instructions]. unfold revert_guard_b.
  destruct (callee_names s) as [callees|]; [|reflexivity].
  destruct (PyStr.mem "require" callees || PyStr.mem "assert" callees);
    destruct (source_code s) as [text|]; cbn [andb]; reflexivity.
Qed.

Lemma scan_next_instructions_true (succ : PyIter Instruction) :
  scan_next_instructions succ = true
  <-> exists pre s,
        Visits succ pre s /\ Forall callees_readable pre /\ is_revert_guard s.
Proof.
  induction succ as [| |a rest IH].
  - split; [discriminate | intros (pre & s & H & _); inversion H].
  - split; [discriminate | intros (pre & s & H & _); inversion H].
  - rewrite scan_next_instructions_step.
    destruct (callee_names a) as [callees|] eqn:Ea.
    + destruct (revert_guard_b a) eqn:Eg.
      * split; [intros _ | reflexivity].
        exists [], a. repeat split; [constructor | constructor |].
        now apply is_revert_guard_b.
      * rewrite IH. split.
        -- intros (pre & s & Hv & Hpre & Hs). exists (a :: pre), s.
           repeat split; [constructor; exact Hv | | exact Hs].
           constructor; [unfold callees_readable; congruence | exact Hpre].
        -- intros (pre & s & Hv & Hpre & Hs). inversion Hv; subst.
           ++ apply is_revert_guard_b in Hs. congruence.
           ++ inversion Hpre; subst. eexists _, s. eauto.
    + split; [discriminate|].
      intros (pre & s & Hv & Hpre & Hs). inversion Hv; subst.
      * destruct Hs as (c & t & Hc & _). congruence.
      * inversion Hpre; subst. unfold callees_readable in *. congruence.
Qed.

End RevertGuard.

(** C9, as amended.  [has_post_transfer_revert_guard] returns [True]
    exactly when the successors can be enumerated and the loop reaches a
    successor that calls [require] or [assert] and whose text in lower
    case contains [success] or [ok], with no exception on the way: the
    iterator does not raise before it and [callee_names()] raises on no
    successor before it.  Any text with the letters [ok] in it will do,
    as [require(token.balanceOf(x) > 0)] shows; when the successors
    cannot be enumerated it returns [False]. *)
Theorem revert_guard_iff (ins : Instruction) :
  (has_post_transfer_revert_guard ins = true
   <-> exists succ pre s,
         next_instructions ins = Ok succ
         /\ Visits succ pre s
         /\ Forall callees_readable pre
         /\ is_revert_guard s)
  /\ (forall s callees text a b,
        callee_names s = Ok callees ->
        (PyStr.mem "require" callees || PyStr.mem "assert" callees) = true ->
        source_code s = Ok text ->
        PyStr.lower text = (a ++ "ok" ++ b)%string ->
        is_revert_guard s)
  /\ (next_instructions ins = Raised ->
      has_post_transfer_revert_guard ins = false)
  /\ is_revert_guard Sample.require_balance
  /\ has_post_transfer_revert_guard Sample.transfer_then_balance = true.
Proof.
  split; [|split; [|split; [|split]]].
  - unfold has_post_transfer_revert_guard.
    destruct (next_instructions ins) as [succ|].
    + rewrite scan_next_instructions_true. split.
      * intros (pre & s & H). exists succ, pre, s. auto.
      * intros (succ' & pre & s & [= <-] & H). exists pre, s. exact H.
    + split; [discriminate | intros (succ' & pre & s & [=] & _)].
  - intros s callees text a b Hc Hg Ht Hok. exists callees, text.
    repeat split; try assumption.
    apply orb_true_iff. right. apply contains_spec. exists a, b. exact Hok.
  - intros H. unfold has_post_transfer_revert_guard. now rewrite H.
  - apply is_revert_guard_b. vm_compute. reflexivity.
  - vm_compute. reflexivity.
Qed.

Lemma revert_guard_iff_witness :
  is_revert_guard Sample.require_balance
  /\ has_post_transfer_revert_guard Sample.transfer_nosucc = false.
Proof.
  split.
  - exact (proj1 (proj2 (revert_guard_iff Sample.transfer_then_balance))
             Sample.require_balance ["require"]
             "require(token.balanceOf(x) > 0)"
             "require(t" "en.balanceof(x) > 0)"
             eq_refl eq_refl eq_refl eq_refl).
  - exact (proj1 (proj2 (proj2 (revert_guard_iff Sample.transfer_nosucc)))
             eq_refl).
Defined.

(** C9, as stated, fails: the successors of
    [Sample.transfer_then_opaque] can be enumerated and the second one
    is [require(success)], but [callee_names()] raises on the first
    one, outside the inner handler, so the outer handler returns
    [False]. *)
Lemma revert_guard_behind_unreadable_callees :
  ~ (has_post_transfer_revert_guard Sample.transfer_then_opaque = true
     <-> exists succ pre s,
           next_instructions Sample.transfer_then_opaque = Ok succ
           /\ Visits succ pre s
           /\ is_revert_guard s).
Proof.
  intros [_ H].
  assert (has_post_transfer_revert_guard Sample.transfer_then_opaque = true)
    as Hg.
  { apply H.
    exists (Yield Sample.opaque_successor (Yield Sample.require_success Stop)),
           [Sample.opaque_successor], Sample.require_success.
    split; [reflexivity|]. split; [repeat constructor|].
    exists ["require"], "require(success)". repeat split. }
  vm_compute in Hg. discriminate Hg.
Qed.

(** ** The constant-zero rule *)

(** C10.  [is_amount_constant_zero] returns [True] exactly when the text
    of the amount, white space around it removed, equals [0], or the
    text contains [uint256).max] anywhere; so [type(uint256).max - fee]
    is excluded, while the zero test admits nothing but white space
    around the [0]. *)
Theorem constant_zero_or_max_anywhere
    (ins : Instruction) (args : list Arg) (amount_arg : Arg) (source : string) :
  get_args ins = Ok args ->
  py_last args = Some amount_arg ->
  arg_source_code amount_arg = Ok source ->
  (is_amount_constant_zero ins = true
   <-> PyStr.strip source = "0"
       \/ PyStr.contains "uint256).max" source = true)
  /\ (forall a b, source = (a ++ "uint256).max" ++ b)%string ->
                  is_amount_constant_zero ins = true)
  /\ (PyStr.strip source = "0"
      <-> exists a b, PyStr.all_space a = true /\ PyStr.all_space b = true
                      /\ source = (a ++ "0" ++ b)%string).
Proof.
  intros Hargs Hlast Hsrc.
  assert (is_amount_constant_zero ins = true
          <-> PyStr.strip source = "0"
              \/ PyStr.contains "uint256).max" source = true) as H.
  { unfold is_amount_constant_zero.
    rewrite Hargs, (py_last_nonempty _ _ Hlast), Hlast, Hsrc.
    destruct (String.eqb_spec (PyStr.strip source) "0") as [E|E];
      destruct (PyStr.contains "uint256).max" source); cbn [orb];
      split; auto; intros [?|?]; congruence. }
  split; [exact H|]. split; [|apply strip_is_zero].
  intros a b Hab. apply H. right. apply contains_spec. exists a, b. exact Hab.
Qed.

Lemma constant_zero_or_max_anywhere_witness :
  is_amount_constant_zero (Sample.transfer_of Sample.amount_max_minus_fee)
  = true
  /\ (is_amount_constant_zero (Sample.transfer_of Sample.zero_padded) = true
      <-> PyStr.strip " 0 " = "0"
          \/ PyStr.contains "uint256).max" " 0 " = true).
Proof.
  split.
  - exact (proj1 (proj2 (constant_zero_or_max_anywhere
                    (Sample.transfer_of Sample.amount_max_minus_fee)
                    [Sample.recipient; Sample.amount_max_minus_fee]
                    Sample.amount_max_minus_fee "type(uint256).max - fee"
                    eq_refl eq_refl eq_refl))
             "type(" " - fee" eq_refl).
  - exact (proj1 (constant_zero_or_max_anywhere
                    (Sample.transfer_of Sample.zero_padded)
                    [Sample.recipient; Sample.zero_padded]
                    Sample.zero_padded " 0 " eq_refl eq_refl eq_refl)).
Defined.

Example max_minus_fee_no_finding :
  query [Sample.fn "withdraw"
           [Sample.transfer_of Sample.amount_max_minus_fee]] = Ok [].
Proof. vm_compute. reflexivity. Qed.

Example token_balance_guard_no_finding :
  query [Sample.fn "withdraw"
           [Sample.transfer_then_balance; Sample.require_balance]] = Ok [].
Proof. vm_compute. reflexivity. Qed.

(** ** The result of the pipeline as a whole *)

Section Pipeline.

(** The verdict of a raising predicate, read as a boolean when it does
    not raise. *)
Lemma filter_py_Ok {A : Type} (f : A -> result bool) (l r : list A) :
  Glider.filter_py f l = Ok r ->
  r = filter (fun x => match f x with Ok true => true | _ => false end) l.
Proof.
  revert r; induction l as [|a l IH]; intros r H.
  - injection H as <-. reflexivity.
  - cbn [Glider.filter_py filter] in *.
    destruct (f a) as [b|]; [|discriminate].
    destruct (Glider.filter_py f l) as [r0|]; [|discriminate].
    injection H as <-. rewrite (IH r0 eq_refl). destruct b; reflexivity.
Qed.

Lemma query_with_caps_Ok (fcap icap : nat) (contract : list Function)
    (r : list Instruction) :
  query_with_caps fcap icap contract = Ok r ->
  r = filter is_finding (extracted fcap icap contract).
Proof.
  unfold query_with_caps. fold (extracted fcap icap contract).
  destruct (Glider.filter_py is_outflow _) as [t|] eqn:Et; [|discriminate].
  intros [= <-]. rewrite (filter_py_Ok _ _ _ Et), !filter_filter_and.
  apply filter_ext. intros ins. unfold is_finding.
  destruct (is_outflow ins) as [[|]|]; reflexivity.
Qed.

Lemma firstn_incl {A : Type} (n : nat) (l : list A) : incl (firstn n l) l.
Proof.
  apply is_prefix_incl. exists (skipn n l). symmetry. apply firstn_skipn.
Qed.

Lemma extracted_In (fcap icap : nat) (contract : list Function)
    (ins : Instruction) :
  In ins (extracted fcap icap contract) ->
  exists f, In f contract /\ is_candidate f = true /\ In ins (instructions f).
Proof.
  unfold extracted, Glider.exec, Glider.instructions_of. intros H.
  apply firstn_incl, in_flat_map in H. destruct H as [f [Hf Hins]].
  rewrite candidate_functions_firstn in Hf.
  apply firstn_incl, filter_In in Hf. destruct Hf. exists f. auto.
Qed.

End Pipeline.

(** X3.  When the contract has at most 500 candidate functions, with at
    most 1000 instructions in all, the bounds cut nothing: [query]
    gives what the pipeline gives with any larger bounds. *)
Theorem query_within_caps (fcap icap : nat) (contract : list Function) :
  List.length (filter is_candidate contract) <= 500 ->
  List.length (flat_map instructions (filter is_candidate contract)) <= 1000 ->
  500 <= fcap -> 1000 <= icap ->
  query contract = query_with_caps fcap icap contract.
Proof.
  intros Hf Hi Hfc Hic. unfold query, query_with_caps, Glider.exec,
    Glider.instructions_of.
  rewrite !candidate_functions_firstn.
  rewrite (firstn_all2 (n := 500)) by exact Hf.
  rewrite (firstn_all2 (n := fcap)) by lia.
  rewrite (firstn_all2 (n := 1000)) by exact Hi.
  rewrite (firstn_all2 (n := icap)) by lia.
  reflexivity.
Qed.

Lemma query_within_caps_witness :
  query [Sample.fn "withdraw" [Sample.transfer_B; Sample.transfer_A]]
  = query_with_caps 501 2000
      [Sample.fn "withdraw" [Sample.transfer_B; Sample.transfer_A]].
Proof.
  apply query_within_caps.
  - vm_compute. repeat constructor.
  - vm_compute. repeat constructor.
  - repeat constructor.
  - lia.
Defined.

(** X4.  Functions added at the end of the contract only add findings
    at the end: when [query] returns on the longer contract it returns
    on the shorter one, with an initial segment of the result. *)
Theorem query_app_prefix (c1 c2 : list Function) (r : list Instruction) :
  query (c1 ++ c2) = Ok r ->
  exists r1, query c1 = Ok r1 /\ is_prefix r1 r.
Proof.
  unfold query, query_with_caps, Glider.exec, Glider.instructions_of.
  rewrite !candidate_functions_firstn, filter_app.
  destruct (flat_map_is_prefix instructions _ _
              (is_prefix_firstn_app 500 500 (filter is_candidate c1)
                 (filter is_candidate c2) (le_n 500))) as [e1 ->].
  destruct (is_prefix_firstn_app 1000 1000
              (flat_map instructions (firstn 500 (filter is_candidate c1)))
              e1 (le_n 1000)) as [e2 ->].
  destruct (Glider.filter_py is_outflow (_ ++ e2)) as [t'|] eqn:Et';
    [|discriminate].
  intros [= <-].
  destruct (filter_py_app _ _ _ _ Et') as [t [-> Hpre]].
  eexists. split; [reflexivity|].
  apply is_prefix_filter, is_prefix_filter, Hpre.
Qed.

Lemma query_app_prefix_witness :
  exists r1,
    query [Sample.fn "withdraw" [Sample.transfer_A]] = Ok r1
    /\ is_prefix r1 [Sample.transfer_A; Sample.transfer_of Sample.amount].
Proof.
  apply (query_app_prefix
           [Sample.fn "withdraw" [Sample.transfer_A]]
           [Sample.fn "redeem" [Sample.transfer_D;
                                Sample.transfer_of Sample.amount]]).
  vm_compute. reflexivity.
Defined.

(** X5.  In a contract whose instructions name their own function as
    parent, every finding sits in a function named by the candidate
    vocabulary without [safeWithdraw]: that name makes a function a
    candidate in step 1, and the safe-wrapper exclusion of step 4 then
    drops every instruction of it. *)
Theorem findings_owner_names (contract : list Function)
    (r : list Instruction) (ins : Instruction) :
  well_parented contract ->
  query contract = Ok r ->
  In ins r ->
  exists p,
    get_parent ins = Ok (Some p)
    /\ name p <> "safeWithdraw"
    /\ In (name p)
          [ "withdraw"; "redeem"; "burn"; "transferFrom"; "exitMarket";
            "borrow"; "redeemShares"; "unstake"; "claim"; "liquidate";
            "seize"; "exit"; "removeLiquidity" ].
Proof.
  intros Hwp Hq Hin. apply query_with_caps_Ok in Hq. subst r.
  apply filter_In in Hin. destruct Hin as [Hex Hfind].
  destruct (extracted_In _ _ _ _ Hex) as [f [Hf [Hcand Hins]]].
  destruct (Hwp f ins Hf Hins) as [p [Hp Hname]].
  exists p. split; [exact Hp|].
  assert (is_protected_by_safe_wrapper ins = false) as Hsafe.
  { unfold is_finding in Hfind.
    destruct (is_outflow ins) as [[|]|]; try discriminate.
    apply andb_true_iff in Hfind. destruct Hfind as [_ Hs].
    unfold survives_filters in Hs.
    destruct (is_protected_by_safe_wrapper ins); [discriminate | reflexivity]. }
  assert (name p <> "safeWithdraw") as Hne.
  { intros E. unfold is_protected_by_safe_wrapper in Hsafe.
    rewrite Hp, E in Hsafe. discriminate Hsafe. }
  split; [exact Hne|].
  unfold is_candidate in Hcand. rewrite <- Hname in Hcand.
  apply andb_true_iff in Hcand. destruct Hcand as [Hcand _].
  apply andb_true_iff in Hcand. destruct Hcand as [_ Hmem].
  apply existsb_exists in Hmem. destruct Hmem as [x [Hx Heq]].
  apply String.eqb_eq in Heq. rewrite Heq.
  cbv [candidate_names In] in Hx. cbv [In].
  repeat (destruct Hx as [Hx|Hx]; [subst x; try congruence; tauto|]).
  contradiction.
Qed.

Lemma findings_owner_names_witness :
  exists p,
    get_parent Sample.transfer_A = Ok (Some p)
    /\ name p <> "safeWithdraw"
    /\ In (name p)
          [ "withdraw"; "redeem"; "burn"; "transferFrom"; "exitMarket";
            "borrow"; "redeemShares"; "unstake"; "claim"; "liquidate";
            "seize"; "exit"; "removeLiquidity" ].
Proof.
  apply (findings_owner_names
           [Sample.fn "safeWithdraw" [Sample.transfer_E];
            Sample.fn "withdraw" [Sample.transfer_A]]
           [Sample.transfer_A]).
  - intros f ins [<-|[<-|[]]] [<-|[]]; eexists; split; reflexivity.
  - vm_compute. reflexivity.
  - left. reflexivity.
Defined.

(** X6.  An outflow call whose argument list cannot be read is
    reported: when it is among the instructions step 2 looks at, is not
    inside a safe wrapper and has no revert guard after it, it is in the
    result of [query]. *)
Theorem unreadable_arguments_reported (contract : list Function)
    (r : list Instruction) (ins : Instruction) (callees : list string) :
  query contract = Ok r ->
  In ins (extracted 500 1000 contract) ->
  get_args ins = Raised ->
  callee_names ins = Ok callees ->
  existsb (fun callee => PyStr.mem callee callees) outflow_callees = true ->
  is_protected_by_safe_wrapper ins = false ->
  has_post_transfer_revert_guard ins = false ->
  In ins r.
Proof.
  intros Hq Hex Hargs Hc Hout Hsafe Hguard.
  apply query_with_caps_Ok in Hq. subst r. apply filter_In.
  split; [exact Hex|].
  destruct (no_argument_list_fail_closed ins Hargs) as [Hl Hg].
  unfold is_finding, is_outflow, is_vulnerable, survives_filters,
    is_amount_constant_zero.
  now rewrite Hc, Hout, Hl, Hg, Hsafe, Hguard, Hargs.
Qed.

Lemma unreadable_arguments_reported_witness :
  In Sample.transfer_noargs_list [Sample.transfer_noargs_list].
Proof.
  apply (unreadable_arguments_reported
           [Sample.fn "withdraw" [Sample.transfer_noargs_list]]
           [Sample.transfer_noargs_list] Sample.transfer_noargs_list
           ["transfer"]).
  - vm_compute. reflexivity.
  - left. reflexivity.
  - reflexivity.
  - reflexivity.
  - reflexivity.
  - reflexivity.
  - reflexivity.
Defined.

(** ** The heuristics, point by point *)

(** X7.  The three analyses of the amount look at the last argument
    only: two calls with the same last argument get the same three
    answers, whatever their other arguments are. *)
Theorem amount_is_last_argument
    (ins ins' : Instruction) (front front' : list Arg) (amount_arg : Arg) :
  get_args ins = Ok (front ++ [amount_arg]) ->
  get_args ins' = Ok (front' ++ [amount_arg]) ->
  lacks_reserve_check ins = lacks_reserve_check ins'
  /\ has_global_df_in_amount ins = has_global_df_in_amount ins'
  /\ is_amount_constant_zero ins = is_amount_constant_zero ins'.
Proof.
  intros H H'.
  assert (forall l : list Arg,
            Nat.eqb (List.length (l ++ [amount_arg])) 0 = false) as Hlen
    by (intros l; apply (py_last_nonempty _ amount_arg), py_last_app).
  unfold lacks_reserve_check, has_global_df_in_amount, is_amount_constant_zero.
  rewrite H, H', !Hlen, !py_last_app. auto.
Qed.

Lemma amount_is_last_argument_witness :
  lacks_reserve_check Sample.transfer_B
  = lacks_reserve_check Sample.transfer_from_B
  /\ has_global_df_in_amount Sample.transfer_B
     = has_global_df_in_amount Sample.transfer_from_B
  /\ is_amount_constant_zero Sample.transfer_B
     = is_amount_constant_zero Sample.transfer_from_B.
Proof.
  exact (amount_is_last_argument
           Sample.transfer_B Sample.transfer_from_B
           [Sample.recipient] [Sample.recipient; Sample.recipient]
           Sample.amount_B eq_refl eq_refl).
Defined.

(** X8.  When the trace hands out the points [l] and then ends or
    raises, [lacks_reserve_check] returns [True] exactly when no point
    of [l] passes both tests: an iterator that raises at the end counts
    like one that is exhausted, and the order of the points does not
    matter. *)
Theorem lacks_reserve_check_no_evidence
    (ins : Instruction) (args : list Arg) (amount_arg : Arg)
    (l : list DfPoint) (tail : PyIter DfPoint) :
  get_args ins = Ok args ->
  py_last args = Some amount_arg ->
  backward_df amount_arg = Ok (yield_all l tail) ->
  tail = Stop \/ tail = Fails ->
  lacks_reserve_check ins = negb (existsb point_guards l).
Proof.
  intros Hargs Hlast Hdf Htail.
  rewrite (lacks_reserve_check_scan _ _ _ _ Hargs Hlast Hdf). clear Hdf.
  induction l as [|p l IH]; cbn [yield_all existsb].
  - destruct Htail as [->| ->]; reflexivity.
  - rewrite scan_backward_flow_step, IH.
    destruct (point_guards p); reflexivity.
Qed.

Lemma lacks_reserve_check_no_evidence_witness :
  lacks_reserve_check Sample.transfer_broken
  = negb (existsb point_guards
            [Sample.point "uint256 amount"; Sample.broken_point;
             Sample.point
               "require(token.balanceOf(address(this)) >= amount)"]).
Proof.
  exact (lacks_reserve_check_no_evidence
           Sample.transfer_broken [Sample.recipient; Sample.amount_broken]
           Sample.amount_broken _ Stop eq_refl eq_refl eq_refl
           (or_introl eq_refl)).
Defined.

(** X9.  A successor whose callee names cannot be read ends the search
    for a revert guard: when no successor before it is a guard,
    [has_post_transfer_revert_guard] returns [False], whatever follows
    it. *)
Theorem unreadable_callees_end_search
    (ins : Instruction) (pre : list Instruction) (s : Instruction)
    (rest : PyIter Instruction) :
  next_instructions ins = Ok (yield_all pre (Yield s rest)) ->
  callee_names s = Raised ->
  forallb (fun q => negb (revert_guard_b q)) pre = true ->
  has_post_transfer_revert_guard ins = false.
Proof.
  intros Hn Hs Hpre. unfold has_post_transfer_revert_guard. rewrite Hn.
  clear Hn. induction pre as [|q pre IH]; cbn [yield_all].
  - rewrite scan_next_instructions_step. now rewrite Hs.
  - cbn [forallb] in Hpre. apply andb_true_iff in Hpre.
    destruct Hpre as [Hq Hpre]. rewrite scan_next_instructions_step.
    destruct (callee_names q); [|reflexivity].
    destruct (revert_guard_b q); [discriminate|].
    exact (IH Hpre).
Qed.

Lemma unreadable_callees_end_search_witness :
  has_post_transfer_revert_guard Sample.transfer_then_opaque = false.
Proof.
  exact (unreadable_callees_end_search
           Sample.transfer_then_opaque [] Sample.opaque_successor
           (Yield Sample.require_success Stop) eq_refl eq_refl eq_refl).
Defined.

(** X10.  A successor whose callee names can be read and that is no
    revert guard (it calls neither [require] nor [assert], or its text
    cannot be read, or its text has neither [success] nor [ok]) is passed
    over: the answer is the one the loop gives without it. *)
Theorem non_guard_successor_skipped
    (ins : Instruction) (pre : list Instruction) (s : Instruction)
    (rest : PyIter Instruction) :
  next_instructions ins = Ok (yield_all pre (Yield s rest)) ->
  callees_readable s ->
  revert_guard_b s = false ->
  has_post_transfer_revert_guard ins
  = scan_next_instructions (yield_all pre rest).
Proof.
  intros Hn Hr Hs. unfold has_post_transfer_revert_guard. rewrite Hn.
  clear Hn. induction pre as [|q pre IH]; cbn [yield_all].
  - rewrite scan_next_instructions_step, Hs.
    unfold callees_readable in Hr.
    destruct (callee_names s); [reflexivity | congruence].
  - rewrite !scan_next_instructions_step, IH. reflexivity.
Qed.

Lemma non_guard_successor_skipped_witness :
  has_post_transfer_revert_guard Sample.transfer_then_emit
  = scan_next_instructions (Yield Sample.require_success Stop).
Proof.
  refine (non_guard_successor_skipped
            Sample.transfer_then_emit [] Sample.emit_event
            (Yield Sample.require_success Stop) eq_refl _ eq_refl).
  unfold callees_readable. discriminate.
Defined.

(** X11.  The pattern [getReserves] of the reserve vocabulary adds
    nothing to the test: a text that has it has [reserves] too, so the
    vocabulary test is the one of the six other patterns. *)
Theorem reserve_vocabulary_six (text : string) :
  has_reserve_vocabulary text
  = existsb (fun pattern =>
               PyStr.contains (PyStr.lower pattern) (PyStr.lower text))
            [ "balanceOf"; "getBalance"; "available"; "liquidity";
              "reserves"; "totalAssets" ].
Proof.
  unfold has_reserve_vocabulary, reserve_check_patterns. cbn [existsb].
  change (PyStr.lower "getReserves") with "getreserves".
  change (PyStr.lower "reserves") with "reserves".
  destruct (PyStr.contains "getreserves" (PyStr.lower text)) eqn:E.
  - assert (PyStr.contains "reserves" (PyStr.lower text) = true) as H.
    { apply contains_spec in E. destruct E as [a [b E]].
      apply contains_spec. exists (a ++ "get")%string, b.
      rewrite E, str_app_assoc. reflexivity. }
    rewrite H, !orb_true_r. reflexivity.
  - reflexivity.
Qed.


